(** * The index loader of llama-index-rag ([loader/index.py])

    The class [Index] configures the process-wide llama-index [Settings],
    builds a vector-store index over documents and persists it, and loads
    a persisted index back.  Every heavy operation is a call into a
    library; the class only decides which calls are made, with which
    arguments and in which order.

    The embedding below keeps that shape.  A method is a computation over
    a [World] (the process-wide settings, the logger levels and the state
    of the host machine) that ends in a value or in a raised exception and
    that leaves a trace of the log records and library calls it made.  The
    world survives an exception, as Python's does. *)

From Stdlib Require Import String List ZArith Bool Lia.
Import ListNotations.
Open Scope string_scope.

(** ** Python values *)

(** [str(v)] as an f-string interpolates it, for a value that is either
    [None] or a [str]. *)
Definition py_str (v : option string) : string :=
  match v with
  | None => "None"
  | Some s => s
  end.

(** [v == s], the test of a value pattern [case s:], for such a value. *)
Definition py_eq (v : option string) (s : string) : bool :=
  match v with
  | None => false
  | Some x => String.eqb x s
  end.

Module logging.
Definition DEBUG : Z := 10.
End logging.

(** The two prompt formatters imported from [llama_cpp.llama_utils]. *)
Module llama_utils.
Inductive formatter : Set :=
  | messages_to_prompt
  | completion_to_prompt.
End llama_utils.

(** The keyword arguments [__get_llm_model] hands to [LlamaCPP(...)]. *)
Module LlamaCPP.
Record kwargs : Set := {
  model_url : string;
  context_window : Z;
  messages_to_prompt : llama_utils.formatter;
  completion_to_prompt : llama_utils.formatter;
  verbose : bool
}.
End LlamaCPP.

(** ** What lies outside the repository

    The objects of llama-index are opaque to the loader, and so is the
    machine it runs on.  [Host] is the state the library and the operating
    system keep (disk, caches, network); every call may change it and may
    raise a [LibError], which the loader never catches. *)

Class Objects : Type := {
  Document : Type;
  LlamaCPP_obj : Type;
  (** a language model as llama-index keeps it in [Settings] *)
  LLM_obj : Type;
  HuggingFaceEmbedding_obj : Type;
  VectorStoreIndex_obj : Type;
  StorageContext_obj : Type;
  Response : Type;
  LibError : Type;
  Host : Type
}.

(** What the source assigns to [Settings.llm]: the string ["default"] or
    the object [LlamaCPP(...)] returned. *)
Inductive llm_value `{Objects} : Type :=
  | llm_str (s : string)
  | llm_obj (o : LlamaCPP_obj).

(** The three attributes of llama-index's process-wide [Settings] that the
    loader assigns.  [None] stands for an attribute nobody has assigned
    yet.  [llm] holds the model the library resolved from the value
    assigned, [embed_model] and [chunk_size] the values assigned. *)
Module Settings.
Record t `{Objects} : Type := {
  llm : option LLM_obj;
  embed_model : option HuggingFaceEmbedding_obj;
  chunk_size : option Z
}.
End Settings.

Class Platform `{Objects} : Type := {
  LlamaCPP_new :
    LlamaCPP.kwargs -> Host -> (LibError + LlamaCPP_obj) * Host;
  HuggingFaceEmbedding_new :
    string -> Host -> (LibError + HuggingFaceEmbedding_obj) * Host;
  (** the setter behind [Settings.llm = v]: llama-index resolves [v] to a
      model (for the string ["default"] it looks for its OpenAI model and
      raises when it cannot have one; an object is taken as the model)
      and keeps what it resolved *)
  resolve_llm : llm_value -> Host -> (LibError + LLM_obj) * Host;
  (** [VectorStoreIndex.from_documents(docs, show_progress=b)]; it reads
      the active settings *)
  VectorStoreIndex_from_documents :
    list Document -> bool -> Settings.t -> Host ->
    (LibError + VectorStoreIndex_obj) * Host;
  (** [index.storage_context.persist(persist_dir=d)] *)
  storage_context_persist :
    VectorStoreIndex_obj -> string -> Host -> (LibError + unit) * Host;
  (** [StorageContext.from_defaults(persist_dir=d)] *)
  StorageContext_from_defaults :
    option string -> Host -> (LibError + StorageContext_obj) * Host;
  load_index_from_storage :
    StorageContext_obj -> Settings.t -> Host ->
    (LibError + VectorStoreIndex_obj) * Host;
  (** [os.stat(p)] succeeds on the host *)
  path_exists : string -> Host -> bool;
  (** the answer of an index to a query *)
  query : VectorStoreIndex_obj -> string -> Response
}.

(** ** Worlds, exceptions and traces *)

Section Model.
Context `{P : Platform}.

Inductive exn : Type :=
  | TypeError (msg : string)
  | LibraryError (e : LibError).

Record World : Type := {
  settings : Settings.t;
  (** [logging.getLogger(name).level] *)
  logger_level : string -> Z;
  host : Host
}.

Inductive Event : Type :=
  | Log_info (logger_name msg : string)
  | Call_LlamaCPP (kw : LlamaCPP.kwargs)
  | Call_HuggingFaceEmbedding (model_name : string)
  | Call_from_documents (docs : list Document) (show_progress : bool)
  | Call_persist (index : VectorStoreIndex_obj) (persist_dir : string)
  | Call_from_defaults (persist_dir : option string)
  | Call_load_index_from_storage (sc : StorageContext_obj).

Record Outcome (A : Type) : Type := {
  result : exn + A;
  world : World;
  trace : list Event
}.
Arguments result {A} _.
Arguments world {A} _.
Arguments trace {A} _.
Arguments Build_Outcome {A} _ _ _.

Definition M (A : Type) : Type := World -> Outcome A.

Definition ret {A : Type} (a : A) : M A :=
  fun w => {| result := inr a; world := w; trace := [] |}.

Definition raise {A : Type} (e : exn) : M A :=
  fun w => {| result := inl e; world := w; trace := [] |}.

Definition bind {A B : Type} (m : M A) (k : A -> M B) : M B :=
  fun w =>
    match m w with
    | {| result := inl e; world := w1; trace := t1 |} =>
        {| result := inl e; world := w1; trace := t1 |}
    | {| result := inr a; world := w1; trace := t1 |} =>
        match k a w1 with
        | {| result := r; world := w2; trace := t2 |} =>
            {| result := r; world := w2; trace := t1 ++ t2 |}
        end
    end.

Definition emit (ev : Event) : M unit :=
  fun w => {| result := inr tt; world := w; trace := [ev] |}.

Definition with_host (w : World) (h : Host) : World :=
  {| settings := settings w; logger_level := logger_level w; host := h |}.

Definition with_settings (w : World) (s : Settings.t) : World :=
  {| settings := s; logger_level := logger_level w; host := host w |}.

(** A call into the library: it is recorded, it runs on the host with the
    active settings in view, and what it raises reaches the caller. *)
Definition call {A : Type} (ev : Event)
    (f : Settings.t -> Host -> (LibError + A) * Host) : M A :=
  fun w =>
    match f (settings w) (host w) with
    | (inl e, h) =>
        {| result := inl (LibraryError e); world := with_host w h; trace := [ev] |}
    | (inr a, h) =>
        {| result := inr a; world := with_host w h; trace := [ev] |}
    end.

(** [Settings.llm = v].  The assignment runs the library's setter: when
    resolving [v] raises, the error reaches the caller and the attribute
    keeps what it held; otherwise the attribute holds the resolved
    model.  It is an assignment, not a call of the loader, and leaves no
    event. *)
Definition set_llm (v : llm_value) : M unit :=
  fun w =>
    let s := settings w in
    match resolve_llm v (host w) with
    | (inl e, h) =>
        {| result := inl (LibraryError e); world := with_host w h; trace := [] |}
    | (inr l, h) =>
        ret tt (with_settings (with_host w h)
          {| Settings.llm := Some l;
             Settings.embed_model := Settings.embed_model s;
             Settings.chunk_size := Settings.chunk_size s |})
    end.

(** [Settings.embed_model = v] for an embedding object: the library keeps
    the object it is given. *)
Definition set_embed_model (v : HuggingFaceEmbedding_obj) : M unit :=
  fun w =>
    let s := settings w in
    ret tt (with_settings w
      {| Settings.llm := Settings.llm s;
         Settings.embed_model := Some v;
         Settings.chunk_size := Settings.chunk_size s |}).

(** [Settings.chunk_size = v]: the attribute reads [v] afterwards. *)
Definition set_chunk_size (v : Z) : M unit :=
  fun w =>
    let s := settings w in
    ret tt (with_settings w
      {| Settings.llm := Settings.llm s;
         Settings.embed_model := Settings.embed_model s;
         Settings.chunk_size := Some v |}).

(** [os.path.exists(p)]: [genericpath.exists] answers [False] when
    [os.stat] raises [OSError] or [ValueError]; for [None] the [TypeError]
    of [os.stat] is not among those and reaches the caller. *)
Definition os_path_exists (p : option string) : M bool :=
  match p with
  | None =>
      raise (TypeError
        "stat: path should be string, bytes, os.PathLike or integer, not NoneType")
  | Some d => fun w => ret (path_exists d (host w)) w
  end.

End Model.

Arguments result {_ A} _.
Arguments world {_ A} _.
Arguments trace {_ A} _.
Arguments Build_Outcome {_ A} _ _ _.

Declare Scope py_scope.
Notation "x <- m ;; k" := (bind m (fun x => k))
  (at level 61, m at next level, right associativity) : py_scope.
Notation "m ;; k" := (bind m (fun _ => k))
  (at level 61, right associativity) : py_scope.
Open Scope py_scope.

(** ** The class [Index] *)

Section Index.
Context `{P : Platform}.

Definition __LOGGER_NAME : string := "index".

Definition __LLM_DEFAULT : string := "DEFAULT".
Definition __LLAMA2_7B_Q4 : string := "LLAMA2-7B_Q4".
Definition __LLAMA2_7B_Q4_URL : string :=
  "https://huggingface.co/TheBloke/Llama-2-7B-Chat-GGUF/resolve/main/llama-2-7b-chat.Q4_K_M.gguf".
Definition __LLAMA2_7B_Q5 : string := "LLAMA2-7B_Q5".
Definition __LLAMA2_7B_Q5_URL : string :=
  "https://huggingface.co/TheBloke/Llama-2-7B-Chat-GGUF/resolve/main/llama-2-7b-chat.Q5_K_M.gguf".
Definition __LLAMA2_13B_Q4 : string := "LLAMA2-13B_Q4".
Definition __LLAMA2_13B_Q4_URL : string :=
  "https://huggingface.co/TheBloke/Llama-2-13B-chat-GGUF/resolve/main/llama-2-13b-chat.Q4_K_M.gguf".
Definition __LLAMA2_13B_Q5 : string := "LLAMA2-13B_Q5".
Definition __LLAMA2_13B_Q5_URL : string :=
  "https://huggingface.co/TheBloke/Llama-2-13B-chat-GGUF/resolve/main/llama-2-13b-chat.Q5_K_M.gguf".

Definition __MIXTRAL_7B_Q4 : string := "MIXTRAL-7B_Q4".
Definition __MIXTRAL_7B_Q4_URL : string :=
  "https://huggingface.co/TheBloke/Mixtral-8x7B-Instruct-v0.1-GGUF/resolve/main/mixtral-8x7b-instruct-v0.1.Q4_K_M.gguf".
Definition __MIXTRAL_7B_Q5 : string := "MIXTRAL-7B_Q5".
Definition __MIXTRAL_7B_Q5_URL : string :=
  "https://huggingface.co/TheBloke/Mixtral-8x7B-Instruct-v0.1-GGUF/resolve/main/mixtral-8x7b-instruct-v0.1.Q5_K_M.gguf".

(** The attributes [__init__] gives an instance.  [logger] is the name of
    the logger [logging.getLogger] returned. *)
Record Index : Type := {
  logger : string;
  verbose : bool;
  documents : option (list Document);
  storage_dir : option string
}.

(** [self.logger.info(msg)] *)
Definition info (self : Index) (msg : string) : M unit :=
  emit (Log_info (logger self) msg).

(** [Index.__get_llm_model(model_url, verbose)] *)
Definition __get_llm_model (model_url : string) (verbose : bool) : M LlamaCPP_obj :=
  let kw :=
    {| LlamaCPP.model_url := model_url;
       LlamaCPP.context_window := 2048;
       LlamaCPP.messages_to_prompt := llama_utils.messages_to_prompt;
       LlamaCPP.completion_to_prompt := llama_utils.completion_to_prompt;
       LlamaCPP.verbose := verbose |} in
  call (Call_LlamaCPP kw) (fun _ => LlamaCPP_new kw).

(** The [match model_type] of [__set_service_context]: the cases are
    tried in order, each binds the locals [llm] and [embed_model]. *)
Definition match_model_type (self : Index) (model_type : option string)
    : M (llm_value * string) :=
  if py_eq model_type __LLM_DEFAULT then
    ret (llm_str "default", "default")
  else if py_eq model_type __LLAMA2_7B_Q4 then
    llm <- __get_llm_model __LLAMA2_7B_Q4_URL (verbose self) ;;
    ret (llm_obj llm, "local")
  else if py_eq model_type __LLAMA2_7B_Q5 then
    llm <- __get_llm_model __LLAMA2_7B_Q5_URL (verbose self) ;;
    ret (llm_obj llm, "local")
  else if py_eq model_type __LLAMA2_13B_Q4 then
    llm <- __get_llm_model __LLAMA2_13B_Q4_URL (verbose self) ;;
    ret (llm_obj llm, "local")
  else if py_eq model_type __LLAMA2_13B_Q5 then
    llm <- __get_llm_model __LLAMA2_13B_Q5_URL (verbose self) ;;
    ret (llm_obj llm, "local")
  else if py_eq model_type __MIXTRAL_7B_Q4 then
    llm <- __get_llm_model __MIXTRAL_7B_Q4_URL (verbose self) ;;
    ret (llm_obj llm, "local")
  else if py_eq model_type __MIXTRAL_7B_Q5 then
    llm <- __get_llm_model __MIXTRAL_7B_Q5_URL (verbose self) ;;
    ret (llm_obj llm, "local")
  else
    raise (TypeError ("LLM model type " ++ py_str model_type ++ " not supported")).

(** [Index.__set_service_context(self, model_type)].  The local
    [embed_model] is bound by the match and not read afterwards. *)
Definition __set_service_context (self : Index) (model_type : option string) : M unit :=
  locals <- match_model_type self model_type ;;
  let llm := fst locals in
  let embed_model := snd locals in
  set_llm llm ;;
  e <- call (Call_HuggingFaceEmbedding "BAAI/bge-small-en-v1.5")
         (fun _ => HuggingFaceEmbedding_new "BAAI/bge-small-en-v1.5") ;;
  set_embed_model e ;;
  set_chunk_size 512.

(** [Index.__init__(self, storage_dir, documents=None, model_type=None)];
    a call that leaves an argument out passes [None] for it. *)
Definition __init__ (storage_dir : option string)
    (documents : option (list Document)) (model_type : option string) : M Index :=
  fun w =>
    let self :=
      {| logger := __LOGGER_NAME;
         verbose := Z.eqb (logger_level w __LOGGER_NAME) logging.DEBUG;
         documents := documents;
         storage_dir := storage_dir |} in
    (__set_service_context self model_type ;; ret self) w.

(** [Index.persist(self)] *)
Definition persist (self : Index) : M (option VectorStoreIndex_obj) :=
  match documents self, storage_dir self with
  | Some docs, Some dir =>
      info self "Building index over the documents ..." ;;
      index <- call (Call_from_documents docs (verbose self))
                 (fun s => VectorStoreIndex_from_documents docs (verbose self) s) ;;
      info self ("Persisting index to " ++ dir ++ " storage ...") ;;
      call (Call_persist index dir) (fun _ => storage_context_persist index dir) ;;
      ret (Some index)
  | _, _ =>
      info self "Documents or index storage path not provided, skipping index creation" ;;
      ret None
  end.

(** [Index.__storage_exists(self)] *)
Definition __storage_exists (self : Index) : M bool :=
  os_path_exists (storage_dir self).

(** [Index.load(self)] *)
Definition load (self : Index) : M (option VectorStoreIndex_obj) :=
  found <- __storage_exists self ;;
  if found then
    info self ("Loading existing index from " ++ py_str (storage_dir self) ++ " storage ...") ;;
    storage_context <- call (Call_from_defaults (storage_dir self))
                         (fun _ => StorageContext_from_defaults (storage_dir self)) ;;
    index <- call (Call_load_index_from_storage storage_context)
               (fun s => load_index_from_storage storage_context s) ;;
    ret (Some index)
  else
    info self ("No storage found at " ++ py_str (storage_dir self)
               ++ " from which to load the index") ;;
    ret None.

(** The labels the match of [__set_service_context] has a case for. *)
Definition recognized_labels : list string :=
  [__LLM_DEFAULT; __LLAMA2_7B_Q4; __LLAMA2_7B_Q5; __LLAMA2_13B_Q4;
   __LLAMA2_13B_Q5; __MIXTRAL_7B_Q4; __MIXTRAL_7B_Q5].

Definition quantized_labels : list string :=
  [__LLAMA2_7B_Q4; __LLAMA2_7B_Q5; __LLAMA2_13B_Q4;
   __LLAMA2_13B_Q5; __MIXTRAL_7B_Q4; __MIXTRAL_7B_Q5].

Definition recognized (label : string) : bool :=
  existsb (String.eqb label) recognized_labels.

(** The message of the record [persist] logs when it skips. *)
Definition skip_message : string :=
  "Documents or index storage path not provided, skipping index creation".

(** The library calls among the events of a trace. *)
Definition is_library_call (ev : Event) : bool :=
  match ev with
  | Log_info _ _ => false
  | _ => true
  end.

(** What the loader relies on from llama-index for a stored index to come
    back: once [persist] has returned, the directory exists, a storage
    context can be made from it, and the index loaded from that context
    answers every query as the stored one does. *)
Definition storage_round_trip : Prop :=
  forall (index : VectorStoreIndex_obj) (dir : string) (h h' : Host),
    storage_context_persist index dir h = (inr tt, h') ->
    path_exists dir h' = true /\
    exists sc h1,
      StorageContext_from_defaults (Some dir) h' = (inr sc, h1) /\
      forall s, exists index' h2,
        load_index_from_storage sc s h1 = (inr index', h2) /\
        forall q, query index' q = query index q.

(** The instance [__init__] fills in when called in [w]. *)
Definition new_instance (w : World) (storage_dir : option string)
    (documents : option (list Document)) : Index :=
  {| logger := __LOGGER_NAME;
     verbose := Z.eqb (logger_level w __LOGGER_NAME) logging.DEBUG;
     documents := documents;
     storage_dir := storage_dir |}.

(** The URL each quantized label is loaded from: the [__..._URL] constant
    its case of the match passes to [__get_llm_model]. *)
Definition model_urls : list (string * string) :=
  [(__LLAMA2_7B_Q4, __LLAMA2_7B_Q4_URL);
   (__LLAMA2_7B_Q5, __LLAMA2_7B_Q5_URL);
   (__LLAMA2_13B_Q4, __LLAMA2_13B_Q4_URL);
   (__LLAMA2_13B_Q5, __LLAMA2_13B_Q5_URL);
   (__MIXTRAL_7B_Q4, __MIXTRAL_7B_Q4_URL);
   (__MIXTRAL_7B_Q5, __MIXTRAL_7B_Q5_URL)].

(** The keyword arguments of the [LlamaCPP(...)] in [__get_llm_model]. *)
Definition llm_kwargs (model_url : string) (verbose : bool) : LlamaCPP.kwargs :=
  {| LlamaCPP.model_url := model_url;
     LlamaCPP.context_window := 2048;
     LlamaCPP.messages_to_prompt := llama_utils.messages_to_prompt;
     LlamaCPP.completion_to_prompt := llama_utils.completion_to_prompt;
     LlamaCPP.verbose := verbose |}.

(** Kinds of events: the model constructors, the calls that build or
    write an index, the calls that read one back. *)
Definition is_model_constructor (ev : Event) : bool :=
  match ev with
  | Call_LlamaCPP _ | Call_HuggingFaceEmbedding _ => true
  | _ => false
  end.

Definition is_log_or_build (ev : Event) : bool :=
  match ev with
  | Log_info _ _ | Call_from_documents _ _ | Call_persist _ _ => true
  | _ => false
  end.

Definition is_log_or_read (ev : Event) : bool :=
  match ev with
  | Log_info _ _ | Call_from_defaults _ | Call_load_index_from_storage _ => true
  | _ => false
  end.

End Index.

(** ** A small platform to run the class on

    Documents are strings, an index is the list of its documents, the
    host is the list of the directories written so far, each with the
    index stored in it, and the constructors return what they were given.
    The string ["default"] resolves to the OpenAI model, a [LlamaCPP]
    object to itself, any other string to an error.  Reading a directory
    nobody wrote raises. *)

Module Demo.

Definition contains (q d : string) : bool :=
  match String.index 0 q d with
  | Some _ => true
  | None => false
  end.

Definition lookup_dir (d : string) (h : list (string * list string))
    : option (list string) :=
  match find (fun e => String.eqb d (fst e)) h with
  | Some e => Some (snd e)
  | None => None
  end.

Definition objects : Objects :=
  {| Document := string;
     LlamaCPP_obj := LlamaCPP.kwargs;
     LLM_obj := (string + LlamaCPP.kwargs)%type;
     HuggingFaceEmbedding_obj := string;
     VectorStoreIndex_obj := list string;
     StorageContext_obj := list string;
     Response := list string;
     LibError := string;
     Host := list (string * list string) |}.

Definition platform : @Platform objects :=
  @Build_Platform objects
    (* LlamaCPP_new *)
    (fun kw h => (inr kw, h))
    (* HuggingFaceEmbedding_new *)
    (fun name h => (inr name, h))
    (* resolve_llm *)
    (fun v h =>
       match v with
       | llm_str name =>
           if String.eqb name "default" then (inr (inl "OpenAI"), h)
           else (inl "ValueError", h)
       | llm_obj o => (inr (inr o), h)
       end)
    (* VectorStoreIndex_from_documents *)
    (fun docs _ _ h => (inr docs, h))
    (* storage_context_persist *)
    (fun index d h => (inr tt, (d, index) :: h))
    (* StorageContext_from_defaults *)
    (fun d h =>
       match d with
       | None => (inr [], h)
       | Some d' =>
           match lookup_dir d' h with
           | Some index => (inr index, h)
           | None => (inl "FileNotFoundError", h)
           end
       end)
    (* load_index_from_storage *)
    (fun sc _ h => (inr sc, h))
    (* path_exists *)
    (fun d h =>
       match lookup_dir d h with
       | Some _ => true
       | None => false
       end)
    (* query *)
    (fun index q => filter (contains q) index).

(** A process that has assigned no setting and configured no logger, on a
    host with nothing stored. *)
Definition fresh_world : @World objects :=
  @Build_World objects
    (@Settings.Build_t objects None None None)
    (fun _ => 0%Z)
    (@nil (string * list string)).

(** The same process after [logging.getLogger("index").setLevel(DEBUG)]. *)
Definition debug_world : @World objects :=
  @Build_World objects
    (settings fresh_world)
    (fun name => if String.eqb name "index" then logging.DEBUG else 0%Z)
    (@nil (string * list string)).

(** The class on this platform. *)
Definition init := @__init__ objects platform.
Definition persist := @persist objects platform.
Definition load := @load objects platform.
Definition index := @Build_Index objects.

End Demo.

(** ** A platform on which the library fails

    The objects are those of [Demo].  A quantized model loads and is
    taken as the model, but no string resolves to a model (there is no
    OpenAI key) and the embedding model cannot be fetched; an index is built over any
    non-empty list of documents, but writing it is refused; every
    directory exists, and none holds a readable index. *)

Module Faulty.

Definition platform : @Platform Demo.objects :=
  @Build_Platform Demo.objects
    (* LlamaCPP_new *)
    (fun kw h => (inr kw, h))
    (* HuggingFaceEmbedding_new *)
    (fun _ h => (inl "ConnectionError", h))
    (* resolve_llm *)
    (fun v h =>
       match v with
       | llm_str _ => (inl "ValueError", h)
       | llm_obj o => (inr (inr o), h)
       end)
    (* VectorStoreIndex_from_documents *)
    (fun docs _ _ h =>
       match docs with
       | [] => (inl "ValueError", h)
       | _ :: _ => (inr docs, h)
       end)
    (* storage_context_persist *)
    (fun _ _ h => (inl "PermissionError", h))
    (* StorageContext_from_defaults *)
    (fun _ h => (inl "FileNotFoundError", h))
    (* load_index_from_storage *)
    (fun sc _ h => (inr sc, h))
    (* path_exists *)
    (fun _ _ => true)
    (* query *)
    (fun index q => filter (Demo.contains q) index).

Definition init := @__init__ Demo.objects platform.
Definition persist := @persist Demo.objects platform.
Definition load := @load Demo.objects platform.

End Faulty.

(** * Properties *)

Section Properties.
Context `{P : Platform}.

(** ** The match on the model type *)

Lemma recognized_inv (label : string) :
  recognized label = true ->
  label = __LLM_DEFAULT \/ In label quantized_labels.
Proof.
  unfold recognized, recognized_labels, quantized_labels.
  cbn [existsb In].
  rewrite !orb_true_iff, !String.eqb_eq.
  intuition (subst; auto 10; discriminate).
Qed.

Lemma unrecognized_inv (label : string) :
  recognized label = false ->
  Forall (fun known => py_eq (Some label) known = false) recognized_labels.
Proof.
  unfold recognized, recognized_labels.
  cbn [existsb py_eq].
  rewrite !orb_false_iff.
  intros H0; repeat constructor; intuition.
Qed.

Lemma match_model_type_default (self : Index) :
  match_model_type self (Some __LLM_DEFAULT) = ret (llm_str "default", "default").
Proof. reflexivity. Qed.

Lemma match_model_type_quantized (self : Index) (label : string) :
  In label quantized_labels ->
  exists url,
    match_model_type self (Some label) =
    (llm <- __get_llm_model url (verbose self) ;; ret (llm_obj llm, "local")).
Proof.
  unfold quantized_labels; cbn [In].
  intros [<-|[<-|[<-|[<-|[<-|[<-|[]]]]]]]; eexists; reflexivity.
Qed.

Lemma match_model_type_url (self : Index) (label : string) :
  In label quantized_labels ->
  exists url,
    In (label, url) model_urls /\
    match_model_type self (Some label) =
    (llm <- __get_llm_model url (verbose self) ;; ret (llm_obj llm, "local")).
Proof.
  unfold quantized_labels, model_urls; cbn [In].
  intros [<-|[<-|[<-|[<-|[<-|[<-|[]]]]]]];
    eexists; (split; [|reflexivity]); auto 10.
Qed.

Lemma match_model_type_at_url (self : Index) (label url : string) :
  In (label, url) model_urls ->
  match_model_type self (Some label) =
  (llm <- __get_llm_model url (verbose self) ;; ret (llm_obj llm, "local")).
Proof.
  unfold model_urls; cbn [In].
  intros [E|[E|[E|[E|[E|[E|[]]]]]]]; inversion E; subst; reflexivity.
Qed.

Lemma recognized_url (label : string) :
  recognized label = true ->
  label = __LLM_DEFAULT \/ exists url, In (label, url) model_urls.
Proof.
  intros Hrec. destruct (recognized_inv _ Hrec) as [-> | Hq]; [left; reflexivity|].
  right. revert Hq. unfold quantized_labels, model_urls; cbn [In].
  intros [<-|[<-|[<-|[<-|[<-|[<-|[]]]]]]]; eexists; auto 10.
Qed.

Lemma match_model_type_other (self : Index) (label : string) :
  recognized label = false ->
  match_model_type self (Some label) =
  raise (TypeError ("LLM model type " ++ label ++ " not supported")).
Proof.
  intros H0. apply unrecognized_inv in H0.
  unfold recognized_labels in H0.
  repeat match goal with
         | H1 : Forall _ (_ :: _) |- _ => inversion H1; clear H1; subst
         end.
  unfold match_model_type.
  repeat match goal with
         | H1 : py_eq _ _ = false |- _ => rewrite H1; clear H1
         end.
  reflexivity.
Qed.

(** ** Running a method

    [run] unfolds the methods and the monad; [lib_cases] splits on what
    each library call met in the goal returns. *)

Ltac reduce :=
  cbn [result world trace settings host logger_level fst snd app
       logger verbose documents storage_dir
       Settings.llm Settings.embed_model Settings.chunk_size].

Ltac run :=
  cbv [__init__ __set_service_context __get_llm_model persist load
       __storage_exists os_path_exists info emit call bind ret raise
       set_llm set_embed_model set_chunk_size with_host with_settings];
  reduce.

Ltac lib_case c :=
  let e := fresh "e" in
  let o := fresh "o" in
  let h := fresh "h" in
  destruct c as [[e|o] h] eqn:?; reduce.

Ltac lib_cases :=
  repeat match goal with
         | |- context [LlamaCPP_new ?kw ?h] => lib_case (LlamaCPP_new kw h)
         | |- context [resolve_llm ?v ?h] => lib_case (resolve_llm v h)
         | |- context [HuggingFaceEmbedding_new ?n ?h] =>
             lib_case (HuggingFaceEmbedding_new n h)
         | |- context [VectorStoreIndex_from_documents ?d ?b ?s ?h] =>
             lib_case (VectorStoreIndex_from_documents d b s h)
         | |- context [storage_context_persist ?i ?d ?h] =>
             lib_case (storage_context_persist i d h)
         | |- context [StorageContext_from_defaults ?d ?h] =>
             lib_case (StorageContext_from_defaults d h)
         | |- context [load_index_from_storage ?sc ?s ?h] =>
             lib_case (load_index_from_storage sc s h)
         end.

(** ** Construction *)

(** [init_cases Hrec] runs [__init__] on a label recognized by [Hrec],
    once per case of the match and per outcome of the library calls. *)
Ltac init_cases Hrec :=
  let Hq := fresh "Hq" in
  destruct (recognized_inv _ Hrec) as [-> | Hq];
  unfold __init__, __set_service_context;
  [ rewrite match_model_type_default
  | match goal with
    | |- context [match_model_type ?s (Some ?l)] =>
        let url := fresh "url" in
        destruct (match_model_type_quantized s l Hq) as [url ->]
    end ];
  run; lib_cases.

Lemma quantized_recognized (label : string) :
  In label quantized_labels -> recognized label = true.
Proof.
  unfold quantized_labels; cbn [In].
  intros [<-|[<-|[<-|[<-|[<-|[<-|[]]]]]]]; reflexivity.
Qed.

Lemma init_unrecognized (label : string) (sd : option string)
    (docs : option (list Document)) (w : World) :
  recognized label = false ->
  __init__ sd docs (Some label) w =
  {| result := inl (TypeError ("LLM model type " ++ label ++ " not supported"));
     world := w;
     trace := [] |}.
Proof.
  intros Hrec.
  unfold __init__, __set_service_context.
  rewrite (match_model_type_other _ _ Hrec).
  reflexivity.
Qed.

(** How [__init__] runs for the label ["DEFAULT"], by what the library
    answers: the assignment to [Settings.llm] resolves the string
    ["default"], then the embedding model is constructed. *)
Lemma init_default_run (sd : option string) (docs : option (list Document))
    (w : World) :
  __init__ sd docs (Some __LLM_DEFAULT) w =
  match resolve_llm (llm_str "default") (host w) with
  | (inl e, h1) =>
      {| result := inl (LibraryError e); world := with_host w h1; trace := [] |}
  | (inr l, h1) =>
      match HuggingFaceEmbedding_new "BAAI/bge-small-en-v1.5" h1 with
      | (inl e, h2) =>
          {| result := inl (LibraryError e);
             world := {| settings :=
                           {| Settings.llm := Some l;
                              Settings.embed_model := Settings.embed_model (settings w);
                              Settings.chunk_size := Settings.chunk_size (settings w) |};
                         logger_level := logger_level w;
                         host := h2 |};
             trace := [Call_HuggingFaceEmbedding "BAAI/bge-small-en-v1.5"] |}
      | (inr em, h2) =>
          {| result := inr (new_instance w sd docs);
             world := {| settings :=
                           {| Settings.llm := Some l;
                              Settings.embed_model := Some em;
                              Settings.chunk_size := Some 512%Z |};
                         logger_level := logger_level w;
                         host := h2 |};
             trace := [Call_HuggingFaceEmbedding "BAAI/bge-small-en-v1.5"] |}
      end
  end.
Proof.
  unfold __init__, __set_service_context, new_instance.
  rewrite match_model_type_default.
  run. lib_cases; reflexivity.
Qed.

(** How [__init__] runs for a quantized label: the model is loaded from
    the URL of the label, the assignment to [Settings.llm] resolves the
    object returned, then the embedding model is constructed. *)
Lemma init_quantized_run (label url : string) (sd : option string)
    (docs : option (list Document)) (w : World) :
  In (label, url) model_urls ->
  __init__ sd docs (Some label) w =
  match LlamaCPP_new
          (llm_kwargs url (Z.eqb (logger_level w __LOGGER_NAME) logging.DEBUG))
          (host w) with
  | (inl e, h1) =>
      {| result := inl (LibraryError e);
         world := with_host w h1;
         trace := [Call_LlamaCPP
                     (llm_kwargs url
                        (Z.eqb (logger_level w __LOGGER_NAME) logging.DEBUG))] |}
  | (inr o, h1) =>
      match resolve_llm (llm_obj o) h1 with
      | (inl e, h2) =>
          {| result := inl (LibraryError e);
             world := with_host w h2;
             trace := [Call_LlamaCPP
                         (llm_kwargs url
                            (Z.eqb (logger_level w __LOGGER_NAME) logging.DEBUG))] |}
      | (inr l, h2) =>
          match HuggingFaceEmbedding_new "BAAI/bge-small-en-v1.5" h2 with
          | (inl e, h3) =>
              {| result := inl (LibraryError e);
                 world := {| settings :=
                               {| Settings.llm := Some l;
                                  Settings.embed_model := Settings.embed_model (settings w);
                                  Settings.chunk_size := Settings.chunk_size (settings w) |};
                             logger_level := logger_level w;
                             host := h3 |};
                 trace := [Call_LlamaCPP
                             (llm_kwargs url
                                (Z.eqb (logger_level w __LOGGER_NAME) logging.DEBUG));
                           Call_HuggingFaceEmbedding "BAAI/bge-small-en-v1.5"] |}
          | (inr em, h3) =>
              {| result := inr (new_instance w sd docs);
                 world := {| settings :=
                               {| Settings.llm := Some l;
                                  Settings.embed_model := Some em;
                                  Settings.chunk_size := Some 512%Z |};
                             logger_level := logger_level w;
                             host := h3 |};
                 trace := [Call_LlamaCPP
                             (llm_kwargs url
                                (Z.eqb (logger_level w __LOGGER_NAME) logging.DEBUG));
                           Call_HuggingFaceEmbedding "BAAI/bge-small-en-v1.5"] |}
          end
      end
  end.
Proof.
  intros Hin.
  unfold __init__, __set_service_context, new_instance.
  rewrite (match_model_type_at_url _ label url Hin).
  unfold llm_kwargs.
  run. lib_cases; reflexivity.
Qed.

(** C1. Constructing an [Index] without a model type, so that
    [model_type] is [None], raises the [TypeError] of the last case of the
    match: no case compares equal to [None]. Nothing is configured and no
    library call is made. *)
Theorem init_without_model_type_raises :
  forall (sd : option string) (docs : option (list Document)) (w : World),
    __init__ sd docs None w =
    {| result := inl (TypeError "LLM model type None not supported");
       world := w;
       trace := [] |}.
Proof. reflexivity. Qed.

(** C3. For a recognized label, construction never raises the
    configuration error: it returns, with [Settings.llm] and
    [Settings.embed_model] assigned, or a library step raised.  It does
    return, and the settings hold the resolved model and the embedding
    model built, as soon as the library steps it runs return: for
    ["DEFAULT"] resolving ["default"] and constructing the embedding; for
    a quantized label loading the model from its URL, resolving it and
    constructing the embedding.  For any other label it raises the
    [TypeError] whose message carries the label, having changed
    nothing. *)
Theorem init_recognized_or_type_error :
  forall (label : string) (sd : option string)
         (docs : option (list Document)) (w : World),
    (recognized label = true ->
       ((exists self,
            result (__init__ sd docs (Some label) w) = inr self /\
            Settings.llm (settings (world (__init__ sd docs (Some label) w))) <> None /\
            Settings.embed_model (settings (world (__init__ sd docs (Some label) w))) <> None)
        \/ exists e, result (__init__ sd docs (Some label) w) = inl (LibraryError e)) /\
       (label = __LLM_DEFAULT \/ exists url, In (label, url) model_urls) /\
       (label = __LLM_DEFAULT ->
          forall l h1 em h2,
            resolve_llm (llm_str "default") (host w) = (inr l, h1) ->
            HuggingFaceEmbedding_new "BAAI/bge-small-en-v1.5" h1 = (inr em, h2) ->
            result (__init__ sd docs (Some label) w) = inr (new_instance w sd docs) /\
            settings (world (__init__ sd docs (Some label) w)) =
            {| Settings.llm := Some l;
               Settings.embed_model := Some em;
               Settings.chunk_size := Some 512%Z |}) /\
       (forall url,
          In (label, url) model_urls ->
          forall o h1 l h2 em h3,
            LlamaCPP_new (llm_kwargs url (Z.eqb (logger_level w __LOGGER_NAME) logging.DEBUG)) (host w) = (inr o, h1) ->
            resolve_llm (llm_obj o) h1 = (inr l, h2) ->
            HuggingFaceEmbedding_new "BAAI/bge-small-en-v1.5" h2 = (inr em, h3) ->
            result (__init__ sd docs (Some label) w) = inr (new_instance w sd docs) /\
            settings (world (__init__ sd docs (Some label) w)) =
            {| Settings.llm := Some l;
               Settings.embed_model := Some em;
               Settings.chunk_size := Some 512%Z |})) /\
    (recognized label = false ->
       __init__ sd docs (Some label) w =
       {| result := inl (TypeError ("LLM model type " ++ label ++ " not supported"));
          world := w;
          trace := [] |}).
Proof.
  intros label sd docs w. split.
  - intros Hrec. split; [|split; [|split]].
    + init_cases Hrec;
        solve [ right; eexists; reflexivity
              | left; eexists; repeat split; discriminate ].
    + apply recognized_url; assumption.
    + intros -> l h1 em h2 Hr He.
      rewrite init_default_run, Hr, He. split; reflexivity.
    + intros url Hin o h1 l h2 em h3 Hc Hr He.
      rewrite (init_quantized_run label url sd docs w Hin), Hc, Hr, He.
      split; reflexivity.
  - apply init_unrecognized.
Qed.

(** C6. Whenever construction with a recognized label returns, the
    process-wide chunk size is 512, whichever label it was. *)
Theorem init_sets_chunk_size_512 :
  forall (label : string) (sd : option string)
         (docs : option (list Document)) (w : World) (self : Index),
    recognized label = true ->
    result (__init__ sd docs (Some label) w) = inr self ->
    Settings.chunk_size (settings (world (__init__ sd docs (Some label) w))) = Some 512%Z.
Proof.
  intros label sd docs w self Hrec.
  init_cases Hrec; intros Hres; solve [ discriminate Hres | reflexivity ].
Qed.

(** The instance a returning [__init__] yields holds the arguments and
    the verbosity read from the logger at that moment. *)
Lemma init_self (mt : option string) (sd : option string)
    (docs : option (list Document)) (w : World) (self : Index) :
  result (__init__ sd docs mt w) = inr self ->
  self = {| logger := __LOGGER_NAME;
            verbose := Z.eqb (logger_level w __LOGGER_NAME) logging.DEBUG;
            documents := docs;
            storage_dir := sd |}.
Proof.
  destruct mt as [label|]; [|discriminate].
  destruct (recognized label) eqn:Hrec.
  - init_cases Hrec; intros Hres; solve [ discriminate Hres | congruence ].
  - pose proof (init_unrecognized label sd docs w Hrec) as E.
    rewrite E. discriminate.
Qed.

Ltac in_trace :=
  cbn [In trace];
  intuition (try discriminate;
             repeat match goal with
                    | Hev : _ = _ :> Event |- _ => inversion Hev; clear Hev; subst
                    end;
             auto).

(** C2. Whatever recognized label an [Index] is constructed with, the
    only embedding model constructed is
    [HuggingFaceEmbedding("BAAI/bge-small-en-v1.5")], and it is what
    [Settings.embed_model] holds afterwards: the embedding written does
    not depend on the label, for ["DEFAULT"] as for the quantized
    models. *)
Theorem init_embedding_ignores_label :
  forall (label : string) (sd : option string)
         (docs : option (list Document)) (w : World) (self : Index),
    recognized label = true ->
    result (__init__ sd docs (Some label) w) = inr self ->
    (forall name,
        In (Call_HuggingFaceEmbedding name) (trace (__init__ sd docs (Some label) w)) ->
        name = "BAAI/bge-small-en-v1.5") /\
    exists h em,
      fst (HuggingFaceEmbedding_new "BAAI/bge-small-en-v1.5" h) = inr em /\
      Settings.embed_model (settings (world (__init__ sd docs (Some label) w))) = Some em.
Proof.
  intros label sd docs w self Hrec.
  init_cases Hrec; intros Hres; try discriminate Hres;
    (split; [ intros name; in_trace | ]);
    match goal with
    | Hc : HuggingFaceEmbedding_new _ ?h = (inr ?em, _) |- _ =>
        exists h, em; rewrite Hc; auto
    end.
Qed.

(** The local [embed_model] the match binds does depend on the label; it
    is the assignment to [Settings.embed_model] that does not read it. *)
Lemma match_model_type_embed_local (self : Index) (label : string) (w : World)
    (locals : llm_value * string) :
  recognized label = true ->
  result (match_model_type self (Some label) w) = inr locals ->
  snd locals = if String.eqb label __LLM_DEFAULT then "default" else "local".
Proof.
  intros Hrec.
  destruct (recognized_inv _ Hrec) as [-> | Hq].
  - rewrite match_model_type_default. cbn.
    intros Hres; inversion Hres; reflexivity.
  - destruct (match_model_type_quantized self label Hq) as [url ->].
    assert (String.eqb label __LLM_DEFAULT = false) as ->.
    { revert Hq. unfold quantized_labels; cbn [In].
      intros [<-|[<-|[<-|[<-|[<-|[<-|[]]]]]]]; reflexivity. }
    run; lib_cases; intros Hres; inversion Hres; reflexivity.
Qed.

(** ** [persist] *)

Lemma persist_skip (self : Index) (w : World) :
  documents self = None \/ storage_dir self = None ->
  persist self w =
  {| result := inr None;
     world := w;
     trace := [Log_info (logger self) skip_message] |}.
Proof.
  unfold persist.
  intros [E|E]; rewrite E; [|destruct (documents self)]; reflexivity.
Qed.

(** The events of the build-and-write branch, given what the library
    answers. *)
Lemma persist_build (self : Index) (w : World) docs dir :
  documents self = Some docs ->
  storage_dir self = Some dir ->
  exists rest,
    trace (persist self w) =
    Log_info (logger self) "Building index over the documents ..."
    :: Call_from_documents docs (verbose self) :: rest /\
    Forall (fun ev => match ev with
                      | Log_info _ msg => msg = "Persisting index to " ++ dir ++ " storage ..."
                      | Call_persist _ d => d = dir
                      | _ => False
                      end) rest /\
    result (persist self w) <> inr None.
Proof.
  intros Ed Es. unfold persist. rewrite Ed, Es.
  run; lib_cases; eexists; (split; [reflexivity|]);
    (split; [repeat constructor | discriminate]).
Qed.

(** C4. With no documents or no storage path, [persist] returns [None],
    raises nothing and leaves the world, the host's storage included, as
    it was: its one effect is the log record.  A library call in the
    trace of [persist] means both were present. *)
Theorem persist_without_documents_or_storage_is_noop :
  forall (self : Index) (w : World),
    (documents self = None \/ storage_dir self = None ->
       persist self w =
       {| result := inr None;
          world := w;
          trace := [Log_info (logger self) skip_message] |}) /\
    (forall ev,
        In ev (trace (persist self w)) ->
        is_library_call ev = true ->
        documents self <> None /\ storage_dir self <> None).
Proof.
  intros self w. split.
  - apply persist_skip.
  - intros ev Hin Hcall.
    destruct (documents self) as [docs|] eqn:Ed;
      [destruct (storage_dir self) as [dir|] eqn:Es|].
    + split; discriminate.
    + rewrite persist_skip in Hin by (rewrite Es; auto).
      destruct Hin as [<-|[]]. discriminate Hcall.
    + rewrite persist_skip in Hin by (rewrite Ed; auto).
      destruct Hin as [<-|[]]. discriminate Hcall.
Qed.

(** C9. An empty document list is not [None]: with [documents = []] and a
    storage path, [persist] takes the build branch.  It never logs the
    skip and does not return [None]; it runs
    [VectorStoreIndex.from_documents] on the empty list and, when that
    returns an index, [storage_context.persist] on that index and the
    storage path, and returns the index once it is written.  What either
    call raises reaches the caller. *)
Theorem persist_builds_over_empty_documents :
  forall (self : Index) (w : World) (dir : string),
    documents self = Some [] ->
    storage_dir self = Some dir ->
    In (Call_from_documents [] (verbose self)) (trace (persist self w)) /\
    ~ In (Log_info (logger self) skip_message) (trace (persist self w)) /\
    result (persist self w) <> inr None /\
    (forall e h1,
        VectorStoreIndex_from_documents [] (verbose self) (settings w) (host w)
          = (inl e, h1) ->
        persist self w =
        {| result := inl (LibraryError e);
           world := with_host w h1;
           trace := [Log_info (logger self) "Building index over the documents ...";
                     Call_from_documents [] (verbose self)] |}) /\
    (forall index h1 h2,
        VectorStoreIndex_from_documents [] (verbose self) (settings w) (host w)
          = (inr index, h1) ->
        storage_context_persist index dir h1 = (inr tt, h2) ->
        persist self w =
        {| result := inr (Some index);
           world := with_host w h2;
           trace := [Log_info (logger self) "Building index over the documents ...";
                     Call_from_documents [] (verbose self);
                     Log_info (logger self)
                       ("Persisting index to " ++ dir ++ " storage ...");
                     Call_persist index dir] |}) /\
    (forall index h1 e h2,
        VectorStoreIndex_from_documents [] (verbose self) (settings w) (host w)
          = (inr index, h1) ->
        storage_context_persist index dir h1 = (inl e, h2) ->
        persist self w =
        {| result := inl (LibraryError e);
           world := with_host w h2;
           trace := [Log_info (logger self) "Building index over the documents ...";
                     Call_from_documents [] (verbose self);
                     Log_info (logger self)
                       ("Persisting index to " ++ dir ++ " storage ...");
                     Call_persist index dir] |}).
Proof.
  intros self w dir Ed Es.
  destruct (persist_build self w [] dir Ed Es) as (rest & Et & Hrest & Hres).
  split; [|split; [|split; [|split; [|split]]]].
  - rewrite Et. cbn; auto.
  - rewrite Et. cbn [In].
    intros [Hx|[Hx|Hx]]; [discriminate Hx | discriminate Hx |].
    rewrite Forall_forall in Hrest. apply Hrest in Hx.
    unfold skip_message in Hx. cbn in Hx. discriminate Hx.
  - exact Hres.
  - intros e h1 Hb. unfold persist. rewrite Ed, Es.
    run. rewrite Hb. reflexivity.
  - intros index h1 h2 Hb Hp. unfold persist. rewrite Ed, Es.
    run. rewrite Hb. reduce. rewrite Hp. reflexivity.
  - intros index h1 e h2 Hb Hp. unfold persist. rewrite Ed, Es.
    run. rewrite Hb. reduce. rewrite Hp. reflexivity.
Qed.

Lemma persist_success (self : Index) (w : World) docs dir index h1 h2 :
  documents self = Some docs ->
  storage_dir self = Some dir ->
  VectorStoreIndex_from_documents docs (verbose self) (settings w) (host w) = (inr index, h1) ->
  storage_context_persist index dir h1 = (inr tt, h2) ->
  result (persist self w) = inr (Some index) /\
  world (persist self w) = with_host w h2.
Proof.
  intros Ed Es Hb Hp. unfold persist. rewrite Ed, Es.
  run. rewrite Hb. reduce. rewrite Hp. split; reflexivity.
Qed.

Lemma persist_build_call (self : Index) (w : World) ds b :
  In (Call_from_documents ds b) (trace (persist self w)) ->
  documents self = Some ds /\ b = verbose self.
Proof.
  destruct (documents self) as [docs|] eqn:Ed;
    [destruct (storage_dir self) as [dir|] eqn:Es|].
  - destruct (persist_build self w docs dir Ed Es) as (rest & -> & Hrest & _).
    cbn [In]. intros [Hx|[Hx|Hx]].
    + discriminate Hx.
    + inversion Hx; subst; split; reflexivity.
    + rewrite Forall_forall in Hrest. apply Hrest in Hx. destruct Hx.
  - rewrite persist_skip by (rewrite Es; auto). in_trace.
  - rewrite persist_skip by (rewrite Ed; auto). in_trace.
Qed.

(** ** [load] *)

Lemma load_without_path (self : Index) (w : World) :
  storage_dir self = None ->
  load self w =
  {| result := inl (TypeError
       "stat: path should be string, bytes, os.PathLike or integer, not NoneType");
     world := w;
     trace := [] |}.
Proof. unfold load, __storage_exists. intros ->. reflexivity. Qed.

Lemma load_absent (self : Index) (w : World) (dir : string) :
  storage_dir self = Some dir ->
  path_exists dir (host w) = false ->
  load self w =
  {| result := inr None;
     world := w;
     trace := [Log_info (logger self)
                 ("No storage found at " ++ dir ++ " from which to load the index")] |}.
Proof.
  intros Es Hp. unfold load, __storage_exists. rewrite Es.
  run. rewrite Hp. reflexivity.
Qed.

Lemma load_present (self : Index) (w : World) (dir : string) :
  storage_dir self = Some dir ->
  path_exists dir (host w) = true ->
  (exists rest,
      trace (load self w) =
      Log_info (logger self) ("Loading existing index from " ++ dir ++ " storage ...")
      :: Call_from_defaults (Some dir) :: rest) /\
  result (load self w) <> inr None /\
  (forall sc h1 index h2,
      StorageContext_from_defaults (Some dir) (host w) = (inr sc, h1) ->
      load_index_from_storage sc (settings w) h1 = (inr index, h2) ->
      result (load self w) = inr (Some index) /\
      world (load self w) = with_host w h2).
Proof.
  intros Es Hp. unfold load, __storage_exists. rewrite Es.
  run. rewrite Hp. reduce. unfold py_str.
  lib_cases; (split; [eexists; reflexivity|]); (split; [discriminate|]);
    intros sc h1 index h2 E1 E2; try discriminate E1;
    inversion E1; subst;
    match goal with
    | Hq : load_index_from_storage _ _ _ = ?rhs |- _ =>
        lazymatch rhs with
        | (inr index, h2) => fail
        | _ => rewrite Hq in E2
        end
    end;
    try discriminate E2; inversion E2; subst; split; reflexivity.
Qed.

(** C5. For an [Index] whose storage path is [dir]: when [dir] does not
    exist on the host, [load] returns [None], raises nothing and changes
    nothing; [StorageContext.from_defaults] is called on [dir] exactly when
    [dir] exists, [None] is returned exactly when it does not, and when it
    exists and the library loads an index, that index is returned. *)
Theorem load_reads_storage_iff_it_exists :
  forall (self : Index) (w : World) (dir : string),
    storage_dir self = Some dir ->
    (path_exists dir (host w) = false ->
       load self w =
       {| result := inr None;
          world := w;
          trace := [Log_info (logger self)
                      ("No storage found at " ++ dir ++ " from which to load the index")] |}) /\
    (In (Call_from_defaults (Some dir)) (trace (load self w)) <->
       path_exists dir (host w) = true) /\
    (result (load self w) = inr None <-> path_exists dir (host w) = false) /\
    (path_exists dir (host w) = true ->
       forall sc h1 index h2,
         StorageContext_from_defaults (Some dir) (host w) = (inr sc, h1) ->
         load_index_from_storage sc (settings w) h1 = (inr index, h2) ->
         result (load self w) = inr (Some index)).
Proof.
  intros self w dir Es.
  destruct (path_exists dir (host w)) eqn:Hp.
  - destruct (load_present self w dir Es Hp) as ((rest & Et) & Hres & Hld).
    repeat split; try discriminate; auto.
    + rewrite Et. cbn; auto.
    + intros Hn. contradiction.
    + intros _ sc h1 index h2 E1 E2. apply (Hld sc h1 index h2 E1 E2).
  - rewrite (load_absent self w dir Es Hp).
    repeat split; try discriminate; auto.
    in_trace.
Qed.

(** C10. An [Index] constructed with [storage_dir=None]: [persist] takes
    the skip branch and returns [None], while [load] raises the
    [TypeError] of [os.path.exists(None)] without logging anything. *)
Theorem persist_skips_but_load_raises_without_storage_dir :
  forall (docs : option (list Document)) (mt : option string)
         (w0 : World) (self : Index),
    result (__init__ None docs mt w0) = inr self ->
    forall w : World,
      persist self w =
      {| result := inr None;
         world := w;
         trace := [Log_info (logger self) skip_message] |} /\
      (exists msg, result (load self w) = inl (TypeError msg)) /\
      world (load self w) = w /\
      trace (load self w) = [].
Proof.
  intros docs mt w0 self Hinit w.
  apply init_self in Hinit.
  assert (Es : storage_dir self = None) by (rewrite Hinit; reflexivity).
  split.
  - apply persist_skip; auto.
  - rewrite (load_without_path self w Es).
    repeat split. eexists; reflexivity.
Qed.

(** C8. The flag [__init__] computes is [logger.level == logging.DEBUG]
    at construction.  For a quantized label the model is loaded by
    running [LlamaCPP] with that flag as [verbose]: what that very call
    answers decides how construction goes on, and no other [LlamaCPP]
    call is made.  A later [persist], in whatever world, builds by running
    [VectorStoreIndex.from_documents] with that flag as [show_progress]:
    what that very call answers decides what [persist] does, and no build
    with another flag is made. *)
Theorem verbose_flag_is_debug_level_at_construction :
  forall (sd : option string) (docs : option (list Document))
         (mt : option string) (w : World),
    (forall kw,
        In (Call_LlamaCPP kw) (trace (__init__ sd docs mt w)) ->
        LlamaCPP.verbose kw = (Z.eqb (logger_level w __LOGGER_NAME) logging.DEBUG)) /\
    (forall label,
        mt = Some label -> In label quantized_labels ->
        exists kw, In (Call_LlamaCPP kw) (trace (__init__ sd docs mt w))) /\
    (forall label url,
        mt = Some label -> In (label, url) model_urls ->
        (forall e h1,
            LlamaCPP_new (llm_kwargs url (Z.eqb (logger_level w __LOGGER_NAME) logging.DEBUG)) (host w) = (inl e, h1) ->
            __init__ sd docs mt w =
            {| result := inl (LibraryError e);
               world := with_host w h1;
               trace := [Call_LlamaCPP (llm_kwargs url (Z.eqb (logger_level w __LOGGER_NAME) logging.DEBUG))] |}) /\
        (forall o h1 l h2 em h3,
            LlamaCPP_new (llm_kwargs url (Z.eqb (logger_level w __LOGGER_NAME) logging.DEBUG)) (host w) = (inr o, h1) ->
            resolve_llm (llm_obj o) h1 = (inr l, h2) ->
            HuggingFaceEmbedding_new "BAAI/bge-small-en-v1.5" h2 = (inr em, h3) ->
            result (__init__ sd docs mt w) = inr (new_instance w sd docs) /\
            Settings.llm (settings (world (__init__ sd docs mt w))) = Some l /\
            host (world (__init__ sd docs mt w)) = h3 /\
            trace (__init__ sd docs mt w) =
            [Call_LlamaCPP (llm_kwargs url (Z.eqb (logger_level w __LOGGER_NAME) logging.DEBUG)); Call_HuggingFaceEmbedding "BAAI/bge-small-en-v1.5"])) /\
    (forall self,
        result (__init__ sd docs mt w) = inr self ->
        forall w' : World,
          (forall ds b,
              In (Call_from_documents ds b) (trace (persist self w')) ->
              b = (Z.eqb (logger_level w __LOGGER_NAME) logging.DEBUG)) /\
          (forall ds dir,
              docs = Some ds -> sd = Some dir ->
              In (Call_from_documents ds (Z.eqb (logger_level w __LOGGER_NAME) logging.DEBUG)) (trace (persist self w')) /\
              (forall e h1,
                  VectorStoreIndex_from_documents ds (Z.eqb (logger_level w __LOGGER_NAME) logging.DEBUG) (settings w') (host w')
                    = (inl e, h1) ->
                  persist self w' =
                  {| result := inl (LibraryError e);
                     world := with_host w' h1;
                     trace := [Log_info __LOGGER_NAME
                                 "Building index over the documents ...";
                               Call_from_documents ds (Z.eqb (logger_level w __LOGGER_NAME) logging.DEBUG)] |}) /\
              (forall index h1 h2,
                  VectorStoreIndex_from_documents ds (Z.eqb (logger_level w __LOGGER_NAME) logging.DEBUG) (settings w') (host w')
                    = (inr index, h1) ->
                  storage_context_persist index dir h1 = (inr tt, h2) ->
                  persist self w' =
                  {| result := inr (Some index);
                     world := with_host w' h2;
                     trace := [Log_info __LOGGER_NAME
                                 "Building index over the documents ...";
                               Call_from_documents ds (Z.eqb (logger_level w __LOGGER_NAME) logging.DEBUG);
                               Log_info __LOGGER_NAME
                                 ("Persisting index to " ++ dir ++ " storage ...");
                               Call_persist index dir] |}))).
Proof.
  intros sd docs mt w. split; [|split; [|split]].
  - intros kw.
    destruct mt as [label|]; [|intros []].
    destruct (recognized label) eqn:Hrec.
    + init_cases Hrec; in_trace.
    + rewrite (init_unrecognized label sd docs w Hrec). intros [].
  - intros label -> Hq.
    pose proof (quantized_recognized label Hq) as Hrec.
    unfold __init__, __set_service_context.
    match goal with
    | |- context [match_model_type ?s (Some label)] =>
        destruct (match_model_type_quantized s label Hq) as [url ->]
    end.
    run; lib_cases; eexists; cbn [In]; left; reflexivity.
  - intros label url -> Hin. split.
    + intros e h1 Hc.
      rewrite (init_quantized_run label url sd docs w Hin), Hc. reflexivity.
    + intros o h1 l h2 em h3 Hc Hr He.
      rewrite (init_quantized_run label url sd docs w Hin), Hc, Hr, He.
      repeat split; reflexivity.
  - intros self Hinit w'.
    apply init_self in Hinit.
    split.
    + intros ds b Hin.
      apply persist_build_call in Hin. destruct Hin as [_ ->].
      rewrite Hinit. reflexivity.
    + intros ds dir -> ->. subst self. split; [|split].
      * match goal with
        | |- In _ (trace (persist ?s w')) =>
            destruct (persist_build s w' ds dir eq_refl eq_refl) as (rest & Et & _)
        end.
        rewrite Et. cbn; auto.
      * intros e h1 Hb. unfold persist. run. rewrite Hb. reflexivity.
      * intros index h1 h2 Hb Hp. unfold persist.
        run. rewrite Hb. reduce. rewrite Hp. reflexivity.
Qed.

(** C7. When the library builds an index over the documents and writes
    it, [persist] returns that index; and if the library keeps its
    storage round trip, a [load] that follows on the same storage path,
    from the same or another [Index], returns an index that answers every
    query as the one [persist] returned. *)
Theorem persist_then_load_round_trip :
  forall (self self' : Index) (w : World) (docs : list Document)
         (dir : string) (index : VectorStoreIndex_obj) (h1 h2 : Host),
    storage_round_trip ->
    documents self = Some docs ->
    storage_dir self = Some dir ->
    storage_dir self' = Some dir ->
    VectorStoreIndex_from_documents docs (verbose self) (settings w) (host w)
      = (inr index, h1) ->
    storage_context_persist index dir h1 = (inr tt, h2) ->
    result (persist self w) = inr (Some index) /\
    exists index',
      result (load self' (world (persist self w))) = inr (Some index') /\
      forall q, query index' q = query index q.
Proof.
  intros self self' w docs dir index h1 h2 Hrt Ed Es Es' Hb Hp.
  destruct (persist_success self w docs dir index h1 h2 Ed Es Hb Hp) as [Hres Hw].
  split; [exact Hres|].
  rewrite Hw.
  destruct (Hrt index dir h1 h2 Hp) as (Hex & sc & h3 & Hsc & Hld).
  destruct (Hld (settings w)) as (index' & h4 & Hl & Hq).
  exists index'. split; [|exact Hq].
  destruct (load_present self' (with_host w h2) dir Es' Hex) as (_ & _ & Hload).
  apply (Hload sc h3 index' h4); assumption.
Qed.

(** ** More on construction *)

(** [init_runs label] runs [__init__] on [label] in every way it can go:
    not recognized, ["DEFAULT"], or quantized with its URL in context. *)
Ltac init_runs label :=
  let Hrec := fresh "Hrec" in
  let Hq := fresh "Hq" in
  destruct (recognized label) eqn:Hrec;
  [ destruct (recognized_inv _ Hrec) as [-> | Hq];
    unfold __init__, __set_service_context;
    [ rewrite match_model_type_default
    | match goal with
      | |- context [match_model_type ?s (Some label)] =>
          let url := fresh "url" in
          let Hurl := fresh "Hurl" in
          destruct (match_model_type_url s label Hq) as (url & Hurl & ->)
      end ];
    run; lib_cases
  | rewrite (init_unrecognized label _ _ _ Hrec); reduce ].


(** X2. The last construction wins.  A construction that returns keeps
    nothing of the settings it found: run in two worlds that differ only
    in their settings, it yields the same instance, the same settings,
    the same host and the same calls. *)
Theorem init_success_forgets_earlier_settings :
  forall (label : string) (sd : option string)
         (docs : option (list Document)) (w w' : World) (self : Index),
    host w' = host w ->
    logger_level w' = logger_level w ->
    result (__init__ sd docs (Some label) w) = inr self ->
    __init__ sd docs (Some label) w' = __init__ sd docs (Some label) w.
Proof.
  intros label sd docs w w' self Hh Hl.
  destruct (recognized label) eqn:Hrec.
  - destruct (recognized_url label Hrec) as [-> | [url Hin]].
    + rewrite !init_default_run. unfold new_instance, with_host.
      rewrite Hh, Hl.
      destruct (resolve_llm (llm_str "default") (host w)) as [[e|l] h1];
        [discriminate|].
      destruct (HuggingFaceEmbedding_new "BAAI/bge-small-en-v1.5" h1) as [[e|em] h2];
        [discriminate|].
      reflexivity.
    + rewrite !(init_quantized_run label url sd docs _ Hin).
      unfold new_instance, with_host.
      rewrite Hh, Hl.
      destruct (LlamaCPP_new (llm_kwargs url (Z.eqb (logger_level w __LOGGER_NAME) logging.DEBUG)) (host w)) as [[e|o] h1];
        [discriminate|].
      destruct (resolve_llm (llm_obj o) h1) as [[e|l] h2]; [discriminate|].
      destruct (HuggingFaceEmbedding_new "BAAI/bge-small-en-v1.5" h2) as [[e|em] h3];
        [discriminate|].
      reflexivity.
  - rewrite (init_unrecognized label sd docs w Hrec). discriminate.
Qed.

(** X3. There is no rollback.  When the embedding model cannot be built,
    construction raises that error with [Settings.llm] already holding
    the model just resolved, the embedding model and the chunk size being
    those from before.  When loading the model or resolving it for
    [Settings.llm] raises, construction raises that error and every
    setting is as before.  The host is as the failing step left it. *)
Theorem init_failure_is_not_rolled_back :
  forall (sd : option string) (docs : option (list Document)) (w : World),
    (forall l h1 e h2,
        resolve_llm (llm_str "default") (host w) = (inr l, h1) ->
        HuggingFaceEmbedding_new "BAAI/bge-small-en-v1.5" h1 = (inl e, h2) ->
        __init__ sd docs (Some __LLM_DEFAULT) w =
        {| result := inl (LibraryError e);
           world := {| settings :=
                         {| Settings.llm := Some l;
                            Settings.embed_model := Settings.embed_model (settings w);
                            Settings.chunk_size := Settings.chunk_size (settings w) |};
                       logger_level := logger_level w;
                       host := h2 |};
           trace := [Call_HuggingFaceEmbedding "BAAI/bge-small-en-v1.5"] |}) /\
    (forall label url o h1 l h2 e h3,
        In (label, url) model_urls ->
        LlamaCPP_new (llm_kwargs url (Z.eqb (logger_level w __LOGGER_NAME) logging.DEBUG)) (host w) = (inr o, h1) ->
        resolve_llm (llm_obj o) h1 = (inr l, h2) ->
        HuggingFaceEmbedding_new "BAAI/bge-small-en-v1.5" h2 = (inl e, h3) ->
        __init__ sd docs (Some label) w =
        {| result := inl (LibraryError e);
           world := {| settings :=
                         {| Settings.llm := Some l;
                            Settings.embed_model := Settings.embed_model (settings w);
                            Settings.chunk_size := Settings.chunk_size (settings w) |};
                       logger_level := logger_level w;
                       host := h3 |};
           trace := [Call_LlamaCPP (llm_kwargs url (Z.eqb (logger_level w __LOGGER_NAME) logging.DEBUG));
                     Call_HuggingFaceEmbedding "BAAI/bge-small-en-v1.5"] |}) /\
    (forall e h1,
        resolve_llm (llm_str "default") (host w) = (inl e, h1) ->
        __init__ sd docs (Some __LLM_DEFAULT) w =
        {| result := inl (LibraryError e); world := with_host w h1; trace := [] |}) /\
    (forall label url e h1,
        In (label, url) model_urls ->
        LlamaCPP_new (llm_kwargs url (Z.eqb (logger_level w __LOGGER_NAME) logging.DEBUG)) (host w) = (inl e, h1) ->
        __init__ sd docs (Some label) w =
        {| result := inl (LibraryError e);
           world := with_host w h1;
           trace := [Call_LlamaCPP (llm_kwargs url (Z.eqb (logger_level w __LOGGER_NAME) logging.DEBUG))] |}) /\
    (forall label url o h1 e h2,
        In (label, url) model_urls ->
        LlamaCPP_new (llm_kwargs url (Z.eqb (logger_level w __LOGGER_NAME) logging.DEBUG)) (host w) = (inr o, h1) ->
        resolve_llm (llm_obj o) h1 = (inl e, h2) ->
        __init__ sd docs (Some label) w =
        {| result := inl (LibraryError e);
           world := with_host w h2;
           trace := [Call_LlamaCPP (llm_kwargs url (Z.eqb (logger_level w __LOGGER_NAME) logging.DEBUG))] |}).
Proof.
  intros sd docs w. split; [|split; [|split; [|split]]].
  - intros l h1 e h2 Hr He.
    rewrite init_default_run, Hr, He. reflexivity.
  - intros label url o h1 l h2 e h3 Hin Hc Hr He.
    rewrite (init_quantized_run label url sd docs w Hin), Hc, Hr, He.
    reflexivity.
  - intros e h1 Hr.
    rewrite init_default_run, Hr. reflexivity.
  - intros label url e h1 Hin Hc.
    rewrite (init_quantized_run label url sd docs w Hin), Hc. reflexivity.
  - intros label url o h1 e h2 Hin Hc Hr.
    rewrite (init_quantized_run label url sd docs w Hin), Hc, Hr. reflexivity.
Qed.

(** X4. Whatever the model type and however it ends, construction makes
    no call other than the two model constructors, at most two calls in
    all, and logs nothing: it neither builds, nor writes, nor reads an
    index. *)
Theorem init_only_constructs_models :
  forall (sd : option string) (docs : option (list Document))
         (mt : option string) (w : World),
    forallb is_model_constructor (trace (__init__ sd docs mt w)) = true /\
    (length (trace (__init__ sd docs mt w)) <= 2)%nat.
Proof.
  intros sd docs mt w.
  destruct mt as [label|]; [|split; [reflexivity | cbn; lia]].
  init_runs label; split; solve [ reflexivity | cbn; lia ].
Qed.

(** ** More on [persist] and [load] *)

(** X5. With documents and a storage path, when the library builds the
    index and writes it, [persist] returns that index, having logged the
    build, built over the documents with the verbosity of the instance,
    logged the write with the path, and written into that path, in this
    order; the host is as the write left it. *)
Theorem persist_success_run :
  forall (self : Index) (w : World) (docs : list Document) (dir : string)
         (index : VectorStoreIndex_obj) (h1 h2 : Host),
    documents self = Some docs ->
    storage_dir self = Some dir ->
    VectorStoreIndex_from_documents docs (verbose self) (settings w) (host w)
      = (inr index, h1) ->
    storage_context_persist index dir h1 = (inr tt, h2) ->
    persist self w =
    {| result := inr (Some index);
       world := with_host w h2;
       trace := [Log_info (logger self) "Building index over the documents ...";
                 Call_from_documents docs (verbose self);
                 Log_info (logger self) ("Persisting index to " ++ dir ++ " storage ...");
                 Call_persist index dir] |}.
Proof.
  intros self w docs dir index h1 h2 Ed Es Hb Hp.
  unfold persist. rewrite Ed, Es.
  run. rewrite Hb. reduce. rewrite Hp. reflexivity.
Qed.

(** X6. [persist] catches nothing.  When the build raises, [persist]
    raises the same error and does not attempt the write.  When the build
    returns and the write raises, [persist] raises that error: the index
    that was built is not returned.  Either way the host is left as the
    failing call left it. *)
Theorem persist_propagates_library_errors :
  forall (self : Index) (w : World) (docs : list Document) (dir : string),
    documents self = Some docs ->
    storage_dir self = Some dir ->
    (forall e h1,
        VectorStoreIndex_from_documents docs (verbose self) (settings w) (host w)
          = (inl e, h1) ->
        persist self w =
        {| result := inl (LibraryError e);
           world := with_host w h1;
           trace := [Log_info (logger self) "Building index over the documents ...";
                     Call_from_documents docs (verbose self)] |}) /\
    (forall index h1 e h2,
        VectorStoreIndex_from_documents docs (verbose self) (settings w) (host w)
          = (inr index, h1) ->
        storage_context_persist index dir h1 = (inl e, h2) ->
        persist self w =
        {| result := inl (LibraryError e);
           world := with_host w h2;
           trace := [Log_info (logger self) "Building index over the documents ...";
                     Call_from_documents docs (verbose self);
                     Log_info (logger self)
                       ("Persisting index to " ++ dir ++ " storage ...");
                     Call_persist index dir] |}).
Proof.
  intros self w docs dir Ed Es. split.
  - intros e h1 Hb. unfold persist. rewrite Ed, Es.
    run. rewrite Hb. reflexivity.
  - intros index h1 e h2 Hb Hp. unfold persist. rewrite Ed, Es.
    run. rewrite Hb. reduce. rewrite Hp. reflexivity.
Qed.

(** X7. [load] catches nothing either.  For a storage path that exists,
    when the storage context cannot be made, [load] raises that error and
    does not call [load_index_from_storage]; when the context is made and
    loading the index raises, [load] raises that error.  An existing
    directory without a readable index is an error, not [None]. *)
Theorem load_propagates_library_errors :
  forall (self : Index) (w : World) (dir : string),
    storage_dir self = Some dir ->
    path_exists dir (host w) = true ->
    (forall e h1,
        StorageContext_from_defaults (Some dir) (host w) = (inl e, h1) ->
        load self w =
        {| result := inl (LibraryError e);
           world := with_host w h1;
           trace := [Log_info (logger self)
                       ("Loading existing index from " ++ dir ++ " storage ...");
                     Call_from_defaults (Some dir)] |}) /\
    (forall sc h1 e h2,
        StorageContext_from_defaults (Some dir) (host w) = (inr sc, h1) ->
        load_index_from_storage sc (settings w) h1 = (inl e, h2) ->
        load self w =
        {| result := inl (LibraryError e);
           world := with_host w h2;
           trace := [Log_info (logger self)
                       ("Loading existing index from " ++ dir ++ " storage ...");
                     Call_from_defaults (Some dir);
                     Call_load_index_from_storage sc] |}).
Proof.
  intros self w dir Es Hp. split.
  - intros e h1 Hc. unfold load, __storage_exists. rewrite Es.
    run. rewrite Hp. reduce. rewrite Hc. reflexivity.
  - intros sc h1 e h2 Hc Hl. unfold load, __storage_exists. rewrite Es.
    run. rewrite Hp. reduce. rewrite Hc. reduce. rewrite Hl. reflexivity.
Qed.

(** X8. Neither [persist] nor [load] assigns a setting or touches a
    logger level, however they end: the configuration a construction
    wrote stays until the next construction. *)
Theorem persist_and_load_keep_settings :
  forall (self : Index) (w : World),
    settings (world (persist self w)) = settings w /\
    logger_level (world (persist self w)) = logger_level w /\
    settings (world (load self w)) = settings w /\
    logger_level (world (load self w)) = logger_level w.
Proof.
  intros self w.
  assert (Hp : settings (world (persist self w)) = settings w /\
               logger_level (world (persist self w)) = logger_level w).
  { unfold persist.
    destruct (documents self) as [docs|]; [destruct (storage_dir self) as [dir|]|];
      run; lib_cases; split; reflexivity. }
  assert (Hl : settings (world (load self w)) = settings w /\
               logger_level (world (load self w)) = logger_level w).
  { unfold load, __storage_exists.
    destruct (storage_dir self) as [dir|]; run;
      [destruct (path_exists dir (host w)); reduce|];
      lib_cases; split; reflexivity. }
  tauto.
Qed.

(** X9. [persist] only logs, builds and writes: it never reads storage
    back and constructs no model.  [load] only logs and reads: it never
    builds or writes an index and constructs no model. *)
Theorem persist_and_load_call_kinds :
  forall (self : Index) (w : World),
    forallb is_log_or_build (trace (persist self w)) = true /\
    forallb is_log_or_read (trace (load self w)) = true.
Proof.
  intros self w. split.
  - unfold persist.
    destruct (documents self) as [docs|]; [destruct (storage_dir self) as [dir|]|];
      run; lib_cases; reflexivity.
  - unfold load, __storage_exists.
    destruct (storage_dir self) as [dir|]; run;
      [destruct (path_exists dir (host w)); reduce|];
      lib_cases; reflexivity.
Qed.

(** X10. [load] reads the storage path and the logger of the instance and
    nothing else: two instances that agree on these load alike, whatever
    their documents and verbosity. *)
Theorem load_ignores_documents :
  forall (self self' : Index) (w : World),
    logger self = logger self' ->
    storage_dir self = storage_dir self' ->
    load self w = load self' w.
Proof.
  intros self self' w El Es.
  unfold load, __storage_exists, info. rewrite El, Es. reflexivity.
Qed.

End Properties.

(** * The properties on the demo platform *)

Lemma demo_storage_round_trip : @storage_round_trip Demo.objects Demo.platform.
Proof.
  intros index dir h h' E.
  cbn in E. inversion E; subst h'; clear E.
  split.
  - cbn. unfold Demo.lookup_dir. cbn. rewrite String.eqb_refl. reflexivity.
  - exists index, ((dir, index) :: h). split.
    + cbn. unfold Demo.lookup_dir. cbn. rewrite String.eqb_refl. reflexivity.
    + intros s. exists index, ((dir, index) :: h). split; reflexivity.
Qed.

Lemma init_embedding_ignores_label_witness :
  Settings.embed_model
    (settings (world (Demo.init (Some "storage") None (Some "DEFAULT") Demo.fresh_world)))
  = Some "BAAI/bge-small-en-v1.5" /\
  forall name,
    In (Call_HuggingFaceEmbedding name)
       (trace (Demo.init (Some "storage") None (Some "LLAMA2-7B_Q4") Demo.fresh_world)) ->
    name = "BAAI/bge-small-en-v1.5".
Proof.
  split.
  - destruct (@init_embedding_ignores_label Demo.objects Demo.platform
                "DEFAULT" (Some "storage") None Demo.fresh_world _
                eq_refl eq_refl) as [_ (h & em & _ & E)].
    reflexivity.
  - apply (@init_embedding_ignores_label Demo.objects Demo.platform
             "LLAMA2-7B_Q4" (Some "storage") None Demo.fresh_world _
             eq_refl eq_refl).
Defined.

Example demo_embedding_default_equals_quantized :
  Settings.embed_model
    (settings (world (Demo.init (Some "storage") None (Some "DEFAULT") Demo.fresh_world)))
  = Settings.embed_model
    (settings (world (Demo.init (Some "storage") None (Some "MIXTRAL-7B_Q4") Demo.fresh_world))).
Proof. reflexivity. Qed.

Lemma init_recognized_or_type_error_witness :
  (result (Demo.init (Some "storage") None (Some "LLAMA2-13B_Q4") Demo.fresh_world)
   = inr (Demo.index "index" false None (Some "storage")) /\
   settings (world (Demo.init (Some "storage") None (Some "LLAMA2-13B_Q4")
                      Demo.fresh_world))
   = @Settings.Build_t Demo.objects
       (Some (inr (llm_kwargs __LLAMA2_13B_Q4_URL false)))
       (Some "BAAI/bge-small-en-v1.5")
       (Some 512%Z)) /\
  Demo.init (Some "storage") None (Some "GPT-4") Demo.fresh_world =
  {| result := inl (TypeError "LLM model type GPT-4 not supported");
     world := Demo.fresh_world;
     trace := [] |}.
Proof.
  split.
  - apply (proj2 (proj2 (proj2
             (proj1 (@init_recognized_or_type_error Demo.objects Demo.platform
                       "LLAMA2-13B_Q4" (Some "storage") None Demo.fresh_world)
                eq_refl)))
             __LLAMA2_13B_Q4_URL
             (or_intror (or_intror (or_introl eq_refl)))
             (llm_kwargs __LLAMA2_13B_Q4_URL false) []
             (inr (llm_kwargs __LLAMA2_13B_Q4_URL false)) []
             "BAAI/bge-small-en-v1.5" []);
      reflexivity.
  - apply (proj2 (@init_recognized_or_type_error Demo.objects Demo.platform
                    "GPT-4" (Some "storage") None Demo.fresh_world)).
    reflexivity.
Defined.

Lemma init_sets_chunk_size_512_witness :
  recognized "MIXTRAL-7B_Q5" = true /\
  Settings.chunk_size
    (settings (world (Demo.init (Some "storage") None (Some "MIXTRAL-7B_Q5") Demo.fresh_world)))
  = Some 512%Z.
Proof.
  split; [reflexivity|].
  apply (@init_sets_chunk_size_512 Demo.objects Demo.platform
           "MIXTRAL-7B_Q5" (Some "storage") None Demo.fresh_world
           (Demo.index "index" false None (Some "storage")));
    reflexivity.
Defined.

Lemma persist_without_documents_or_storage_is_noop_witness :
  Demo.persist (Demo.index "index" false None (Some "storage")) Demo.fresh_world =
  {| result := inr None;
     world := Demo.fresh_world;
     trace := [Log_info "index" skip_message] |}.
Proof.
  apply (proj1 (@persist_without_documents_or_storage_is_noop
                  Demo.objects Demo.platform
                  (Demo.index "index" false None (Some "storage"))
                  Demo.fresh_world)).
  left. reflexivity.
Defined.

Lemma load_reads_storage_iff_it_exists_witness :
  Demo.load (Demo.index "index" false None (Some "storage")) Demo.fresh_world =
  {| result := inr None;
     world := Demo.fresh_world;
     trace := [Log_info "index"
                 "No storage found at storage from which to load the index"] |}.
Proof.
  apply (proj1 (@load_reads_storage_iff_it_exists
                  Demo.objects Demo.platform
                  (Demo.index "index" false None (Some "storage"))
                  Demo.fresh_world "storage" eq_refl)).
  reflexivity.
Defined.

Lemma persist_then_load_round_trip_witness :
  result (Demo.persist
            (Demo.index "index" false (Some ["a test document"]) (Some "storage"))
            Demo.fresh_world)
  = inr (Some ["a test document"]) /\
  exists index',
    result (Demo.load
              (Demo.index "index" true None (Some "storage"))
              (world (Demo.persist
                        (Demo.index "index" false (Some ["a test document"])
                           (Some "storage"))
                        Demo.fresh_world)))
    = inr (Some index') /\
    forall q, @query Demo.objects Demo.platform index' q
              = @query Demo.objects Demo.platform ["a test document"] q.
Proof.
  apply (@persist_then_load_round_trip Demo.objects Demo.platform
           (Demo.index "index" false (Some ["a test document"]) (Some "storage"))
           (Demo.index "index" true None (Some "storage"))
           Demo.fresh_world ["a test document"] "storage" ["a test document"]
           [] [("storage", ["a test document"])]).
  - exact demo_storage_round_trip.
  - reflexivity.
  - reflexivity.
  - reflexivity.
  - reflexivity.
  - reflexivity.
Defined.

Lemma verbose_flag_is_debug_level_at_construction_witness :
  Demo.persist
    (Demo.index "index" true (Some ["a test document"]) (Some "storage"))
    Demo.fresh_world =
  {| result := inr (Some ["a test document"]);
     world := with_host Demo.fresh_world [("storage", ["a test document"])];
     trace := [@Log_info Demo.objects "index" "Building index over the documents ...";
               @Call_from_documents Demo.objects ["a test document"] true;
               @Log_info Demo.objects "index" "Persisting index to storage storage ...";
               @Call_persist Demo.objects ["a test document"] "storage"] |} /\
  trace (Demo.init (Some "storage") (Some ["a test document"])
           (Some "LLAMA2-7B_Q4") Demo.debug_world) =
  [@Call_LlamaCPP Demo.objects (llm_kwargs __LLAMA2_7B_Q4_URL true);
   @Call_HuggingFaceEmbedding Demo.objects "BAAI/bge-small-en-v1.5"].
Proof.
  pose proof (@verbose_flag_is_debug_level_at_construction
                Demo.objects Demo.platform
                (Some "storage") (Some ["a test document"])
                (Some "LLAMA2-7B_Q4") Demo.debug_world) as (_ & _ & Hllm & Hbuild).
  split.
  - apply (proj2 (proj2 (proj2 (Hbuild (Demo.index "index" true
                                   (Some ["a test document"]) (Some "storage"))
                           eq_refl Demo.fresh_world)
                    ["a test document"] "storage" eq_refl eq_refl))
             ["a test document"] [] [("storage", ["a test document"])]);
      reflexivity.
  - apply (proj2 (Hllm "LLAMA2-7B_Q4" __LLAMA2_7B_Q4_URL eq_refl
                    (or_introl eq_refl))
             (llm_kwargs __LLAMA2_7B_Q4_URL true) []
             (inr (llm_kwargs __LLAMA2_7B_Q4_URL true)) []
             "BAAI/bge-small-en-v1.5" []);
      reflexivity.
Defined.

Lemma persist_builds_over_empty_documents_witness :
  Demo.persist (Demo.index "index" false (Some []) (Some "storage"))
    Demo.fresh_world =
  {| result := inr (Some []);
     world := with_host Demo.fresh_world [("storage", [])];
     trace := [@Log_info Demo.objects "index" "Building index over the documents ...";
               @Call_from_documents Demo.objects [] false;
               @Log_info Demo.objects "index" "Persisting index to storage storage ...";
               @Call_persist Demo.objects [] "storage"] |} /\
  result (Faulty.persist (Demo.index "index" false (Some []) (Some "storage"))
            Demo.fresh_world)
  = inl (@LibraryError Demo.objects "ValueError").
Proof.
  split.
  - destruct (@persist_builds_over_empty_documents Demo.objects Demo.platform
                (Demo.index "index" false (Some []) (Some "storage"))
                Demo.fresh_world "storage" eq_refl eq_refl)
      as (_ & _ & _ & _ & Hok & _).
    apply (Hok [] [] [("storage", [])]); reflexivity.
  - destruct (@persist_builds_over_empty_documents Demo.objects Faulty.platform
                (Demo.index "index" false (Some []) (Some "storage"))
                Demo.fresh_world "storage" eq_refl eq_refl)
      as (_ & _ & _ & Hfail & _).
    apply (f_equal result (Hfail "ValueError" [] eq_refl)).
Defined.

Lemma persist_skips_but_load_raises_without_storage_dir_witness :
  result (Demo.persist (Demo.index "index" false (Some ["a test document"]) None)
            Demo.fresh_world)
  = inr None /\
  exists msg,
    result (Demo.load (Demo.index "index" false (Some ["a test document"]) None)
              Demo.fresh_world)
    = inl (TypeError msg).
Proof.
  destruct (@persist_skips_but_load_raises_without_storage_dir
              Demo.objects Demo.platform
              (Some ["a test document"]) (Some "DEFAULT") Demo.fresh_world
              (Demo.index "index" false (Some ["a test document"]) None)
              eq_refl Demo.fresh_world) as (Hp & Hl & _).
  split.
  - exact (f_equal result Hp).
  - exact Hl.
Defined.

(** ** Further properties, on the two platforms *)


Lemma init_success_forgets_earlier_settings_witness :
  Demo.init (Some "storage") None (Some "DEFAULT")
    (world (Demo.init (Some "storage") None (Some "LLAMA2-7B_Q4") Demo.fresh_world))
  = Demo.init (Some "storage") None (Some "DEFAULT") Demo.fresh_world.
Proof.
  apply (@init_success_forgets_earlier_settings Demo.objects Demo.platform
           "DEFAULT" (Some "storage") None Demo.fresh_world
           (world (Demo.init (Some "storage") None (Some "LLAMA2-7B_Q4")
                     Demo.fresh_world))
           (Demo.index "index" false None (Some "storage")));
    reflexivity.
Defined.

Lemma init_failure_is_not_rolled_back_witness :
  settings (world (Faulty.init (Some "storage") None (Some "LLAMA2-7B_Q4")
                     Demo.fresh_world))
  = @Settings.Build_t Demo.objects
      (Some (inr (llm_kwargs __LLAMA2_7B_Q4_URL false))) None None /\
  Faulty.init (Some "storage") None (Some "DEFAULT") Demo.fresh_world =
  {| result := inl (@LibraryError Demo.objects "ValueError");
     world := Demo.fresh_world;
     trace := [] |}.
Proof.
  destruct (@init_failure_is_not_rolled_back Demo.objects Faulty.platform
              (Some "storage") None Demo.fresh_world)
    as (_ & Hemb & Hres & _).
  split.
  - apply (f_equal (fun o => settings (world o))
             (Hemb "LLAMA2-7B_Q4" __LLAMA2_7B_Q4_URL
                (llm_kwargs __LLAMA2_7B_Q4_URL false) []
                (inr (llm_kwargs __LLAMA2_7B_Q4_URL false)) []
                "ConnectionError" []
                (or_introl eq_refl) eq_refl eq_refl eq_refl)).
  - apply (Hres "ValueError" [] eq_refl).
Defined.

Lemma persist_success_run_witness :
  Demo.persist (Demo.index "index" false (Some ["a test document"]) (Some "storage"))
    Demo.fresh_world =
  {| result := inr (Some ["a test document"]);
     world := with_host Demo.fresh_world [("storage", ["a test document"])];
     trace := [@Log_info Demo.objects "index" "Building index over the documents ...";
               @Call_from_documents Demo.objects ["a test document"] false;
               @Log_info Demo.objects "index" "Persisting index to storage storage ...";
               @Call_persist Demo.objects ["a test document"] "storage"] |}.
Proof.
  apply (@persist_success_run Demo.objects Demo.platform
           (Demo.index "index" false (Some ["a test document"]) (Some "storage"))
           Demo.fresh_world ["a test document"] "storage" ["a test document"]
           [] [("storage", ["a test document"])]);
    reflexivity.
Defined.

Lemma persist_propagates_library_errors_witness :
  result (Faulty.persist (Demo.index "index" false (Some []) (Some "storage"))
            Demo.fresh_world)
  = inl (@LibraryError Demo.objects "ValueError") /\
  result (Faulty.persist
            (Demo.index "index" false (Some ["a test document"]) (Some "storage"))
            Demo.fresh_world)
  = inl (@LibraryError Demo.objects "PermissionError").
Proof.
  split.
  - apply (f_equal result
             (proj1 (@persist_propagates_library_errors Demo.objects Faulty.platform
                       (Demo.index "index" false (Some []) (Some "storage"))
                       Demo.fresh_world [] "storage" eq_refl eq_refl)
                "ValueError" [] eq_refl)).
  - apply (f_equal result
             (proj2 (@persist_propagates_library_errors Demo.objects Faulty.platform
                       (Demo.index "index" false (Some ["a test document"])
                          (Some "storage"))
                       Demo.fresh_world ["a test document"] "storage"
                       eq_refl eq_refl)
                ["a test document"] [] "PermissionError" [] eq_refl eq_refl)).
Defined.

Lemma load_propagates_library_errors_witness :
  result (Faulty.load (Demo.index "index" false None (Some "storage"))
            Demo.fresh_world)
  = inl (@LibraryError Demo.objects "FileNotFoundError").
Proof.
  apply (f_equal result
           (proj1 (@load_propagates_library_errors Demo.objects Faulty.platform
                     (Demo.index "index" false None (Some "storage"))
                     Demo.fresh_world "storage" eq_refl eq_refl)
              "FileNotFoundError" [] eq_refl)).
Defined.

Lemma load_ignores_documents_witness :
  Demo.load (Demo.index "index" false None (Some "storage")) Demo.fresh_world =
  Demo.load (Demo.index "index" true (Some ["a test document"]) (Some "storage"))
    Demo.fresh_world.
Proof.
  apply (@load_ignores_documents Demo.objects Demo.platform
           (Demo.index "index" false None (Some "storage"))
           (Demo.index "index" true (Some ["a test document"]) (Some "storage"))
           Demo.fresh_world);
    reflexivity.
Defined.
